(** * Extract SRT subtitles with ISO language codes: the subtitle tag resolver

    Shallow embedding of [PluginStreamMapper] of
    [extract_srt_subtitles_with_iso/plugin.py]:
    [test_stream_needs_processing], [custom_stream_mapping] and
    [get_ffmpeg_args].

    Python [str] values are modelled as Rocq [string]s whose characters are
    read as Latin-1 code points (0..255): [len] is [String.length],
    [str.lower] and the [\s] class of [re] are given on that range.  The
    language table of [babelfish] is a parameter ([language_table]); a
    lookup that raises is [None] (the source catches it with a bare
    [except]).  Raised Python exceptions are the [Raise] case of [result]. *)

From Stdlib Require Import String Ascii List Bool ZArith Lia.
Import ListNotations.
Open Scope string_scope.

(** ** Python values and exceptions *)

Inductive py_exc :=
| UnboundLocalError (var : string)
| AttributeError (msg : string)
| LanguageConvertError
| Exception (msg : string).

Inductive result (A : Type) :=
| Ok (a : A)
| Raise (e : py_exc).
Arguments Ok {A} a.
Arguments Raise {A} e.

Definition bind {A B} (m : result A) (k : A -> result B) : result B :=
  match m with
  | Ok a => k a
  | Raise e => Raise e
  end.

Notation "'let*' x := m 'in' k" := (bind m (fun x => k))
  (at level 200, x name, m at level 100, k at level 200).

(** Python truthiness of a [str]. *)
Definition truthy (s : string) : bool := negb (String.eqb s "").

(** [str.lower] on Latin-1 code points: A-Z and the letters U+00C0..U+00DE
    (except U+00D7, the multiplication sign) move down by 32. *)
Definition lower_char (c : ascii) : ascii :=
  let n := nat_of_ascii c in
  if ((65 <=? n) && (n <=? 90))%nat
     || ((192 <=? n) && (n <=? 222) && negb (n =? 215))%nat
  then ascii_of_nat (n + 32)
  else c.

Fixpoint lower (s : string) : string :=
  match s with
  | EmptyString => EmptyString
  | String c s' => String (lower_char c) (lower s')
  end.

(** The [\s] class of [re] on a [str] pattern, on Latin-1 code points:
    U+0009..U+000D, U+001C..U+001F, U+0020, U+0085 and U+00A0. *)
Definition is_space (c : ascii) : bool :=
  let n := nat_of_ascii c in
  ((9 <=? n) && (n <=? 13))%nat || ((28 <=? n) && (n <=? 32))%nat
  || (n =? 133)%nat || (n =? 160)%nat.

(** [re.sub('\s', '-', s)]: every match of the one-character pattern is
    replaced. *)
Fixpoint sanitize (s : string) : string :=
  match s with
  | EmptyString => EmptyString
  | String c s' => String (if is_space c then "-"%char else c) (sanitize s')
  end.

(** [needle in haystack] for [str]. *)
Fixpoint contains (needle hay : string) : bool :=
  if String.prefix needle hay then true
  else match hay with
       | EmptyString => false
       | String _ hay' => contains needle hay'
       end.

(** [str(n)] of a Python [int]: decimal digits, with a leading [-] when
    negative. *)
Definition digit (n : N) : ascii := ascii_of_N (48 + n).

Fixpoint dec_aux (fuel : nat) (n : N) (acc : string) : string :=
  match fuel with
  | O => acc
  | S fuel' =>
      let acc' := String (digit (N.modulo n 10)) acc in
      if (n <? 10)%N then acc' else dec_aux fuel' (N.div n 10) acc'
  end.

Definition dec_N (n : N) : string := dec_aux (N.to_nat n + 1) n "".

Definition str_int (z : Z) : string :=
  if (z <? 0)%Z then "-" ++ dec_N (Z.to_N (- z)) else dec_N (Z.to_N z).

(** ["{}".format(x)] of [stream_info.get('index')], [None] when absent. *)
Definition format_index (i : option Z) : string :=
  match i with
  | Some z => str_int z
  | None => "None"
  end.

(** ** babelfish languages *)

(** A [babelfish.Language]: its alpha-3 code always exists; the other
    representations are converters that may raise
    [LanguageConvertError] ([None] here). *)
Record Language := mkLanguage {
  alpha3 : string;
  alpha2 : option string;
  alpha3b : option string;
  opensubtitles : option string;
  country : option string;
  script : option string
}.

(** [Language.__str__]: alpha-2 when it converts, else alpha-3, then
    [-country] and [-script]. *)
Definition language_str (l : Language) : string :=
  match alpha2 l with Some a => a | None => alpha3 l end
  ++ match country l with Some c => "-" ++ c | None => "" end
  ++ match script l with Some s => "-" ++ s | None => "" end.

(** [Language.__eq__] against a [str]: [str(self) == other]. *)
Definition language_eq (l : Language) (s : string) : bool :=
  String.eqb (language_str l) s.

(** [Language.__bool__]: [self.alpha3 != 'und']. *)
Definition language_bool (l : Language) : bool :=
  negb (String.eqb (alpha3 l) "und").

(** Reading a converter attribute ([language.alpha2], ...). *)
Definition convert (o : option string) : result string :=
  match o with
  | Some s => Ok s
  | None => Raise LanguageConvertError
  end.

(** The four constructors [Language.fromalpha2], [fromalpha3b],
    [fromalpha3t] and [fromopensubtitles]. *)
Inductive lookup_kind := FromAlpha2 | FromAlpha3b | FromAlpha3t | FromOpenSubtitles.

Record language_table := mkTable {
  lookup : lookup_kind -> string -> option Language
}.

(** ** Plugin settings and probe data *)

(** The values returned by [self.settings.get_setting(...)]. *)
Record Settings := mkSettings {
  language_code : string;
  use_sdh_extension : string;
  use_forced_extension : string;
  default_language : string;
  use_title_failback : bool;
  use_regional : bool;
  latin_spanish : string
}.

(** [Settings.settings], the defaults of the plugin. *)
Definition default_settings : Settings :=
  mkSettings "1" "" "" "en" true true "1".

(** The [tags] map of a probed stream: its optional [language] and
    [title] keys. *)
Record stream_tags := mkTags {
  tag_language : option string;
  tag_title : option string
}.

(** The probed stream dictionary: [codec_name], [index] and [tags]. *)
Record stream_info := mkStream {
  codec_name : option string;
  index : option Z;
  tags : option stream_tags
}.

(** One entry of [self.sub_streams]. *)
Record sub_stream := mkSubStream {
  sub_stream_id : Z;
  subtitle_tag : string;
  sub_stream_mapping : list string
}.

(** The mapper object: [sub_streams] and the option lists and input file
    of the [StreamMapper] base class; [input_file] holds the empty string
    until a path is set. *)
Record mapper := mkMapper {
  sub_streams : list sub_stream;
  generic_options : list string;
  main_options : list string;
  advanced_options : list string;
  input_file : string
}.

(** The dictionary returned by [custom_stream_mapping]. *)
Record stream_mapping_result := mkMapping {
  stream_mapping : list string;
  stream_encoding : list string
}.

(** ** [test_stream_needs_processing] *)

(** [stream_info.get('codec_name').lower() in ['srt', 'subrip', 'mov_text']];
    on an absent key [.get] yields [None] and [None.lower()] raises. *)
Definition test_stream_needs_processing (info : stream_info) : result bool :=
  match codec_name info with
  | None => Raise (AttributeError "'NoneType' object has no attribute 'lower'")
  | Some c =>
      let c' := lower c in
      Ok (String.eqb c' "srt" || String.eqb c' "subrip" || String.eqb c' "mov_text")
  end.

(** ** [custom_stream_mapping] *)

Section Mapping.

Variable tbl : language_table.

(** One [Language.fromXXX(stream_lang)] call inside a [try]; the list
    records the constructors called, in order. *)
Definition attempt (k : lookup_kind) (s : string)
  : list lookup_kind * option Language :=
  ([k], lookup tbl k s).

(** [try: a  except: b]. *)
Definition try_except (a : list lookup_kind * option Language)
    (b : unit -> list lookup_kind * option Language)
  : list lookup_kind * option Language :=
  match snd a with
  | Some _ => a
  | None => let r := b tt in ((fst a ++ fst r)%list, snd r)
  end.

(** Lines 177-194: the value of [language] ([None] for ['']), with the
    lookups attempted. *)
Definition resolve_language (stream_lang : string)
  : list lookup_kind * option Language :=
  if (String.length stream_lang =? 2)%nat then attempt FromAlpha2 stream_lang
  else if (String.length stream_lang =? 3)%nat then
    try_except (attempt FromAlpha3b stream_lang) (fun _ =>
      try_except (attempt FromAlpha3t stream_lang) (fun _ =>
        attempt FromOpenSubtitles stream_lang))
  else ([], None).

(** [stream_info.get('tags', {})]. *)
Definition stream_tags_of (info : stream_info) : stream_tags :=
  match tags info with
  | Some t => t
  | None => mkTags None None
  end.

(** Lines 168-175: [stream_lang] after lower-casing and the default
    language substitution. *)
Definition stream_lang_of (cfg : Settings) (t : stream_tags) : string :=
  let stream_lang :=
    match tag_language t with
    | Some l => if truthy l then lower l else ""
    | None => ""
    end in
  if String.eqb stream_lang "und" || String.eqb stream_lang "" then
    default_language cfg
  else stream_lang.

(** Lines 170-171: [stream_title], the lower-cased title. *)
Definition stream_title_of (t : stream_tags) : string :=
  match tag_title t with
  | Some s => if truthy s then lower s else ""
  | None => ""
  end.

Definition e_acute : ascii := ascii_of_nat 233.
Definition quebec_accented : string :=
  "qu" ++ String e_acute ("b" ++ String e_acute "c").
Definition mexic_accented : string := "m" ++ String e_acute "xic".

(** Lines 214-243: regional detection; takes and returns
    [(language_tag, region_tag)], an unbound [region_tag] being [None]. *)
Definition regional (cfg : Settings) (language : Language)
    (stream_title : string) (language_tag : string)
    (region_tag : option string) : string * option string :=
  let has s := contains s stream_title in
  if language_eq language "en" then
    if (has "united" && has "states") || has "usa" || has "america" then
      (language_tag, Some "US")
    else if (has "united" && has "kingdom") || (has "great" && has "britain")
            || has "uk" then (language_tag, Some "GB")
    else if has "australia" then (language_tag, Some "AU")
    else if has "canad" then (language_tag, Some "CA")
    else if has "zealand" then (language_tag, Some "NZ")
    else (language_tag, region_tag)
  else if language_eq language "fr" then
    if has "canad" || has "quebec" || has quebec_accented then
      (language_tag, Some "CA")
    else if has "belgi" then (language_tag, Some "BE")
    else (language_tag, region_tag)
  else if language_eq language "pt" then
    if has "brazil" || has "brasil" then (language_tag, Some "BR")
    else (language_tag, region_tag)
  else if language_eq language "es" then
    let region_tag :=
      if has "mexic" || has mexic_accented then Some "MX" else region_tag in
    if has "latin" || has "america" then
      if String.eqb (latin_spanish cfg) "1" then ("ea", region_tag)
      else if String.eqb (latin_spanish cfg) "2" then (language_tag, Some "419")
      else (language_tag, region_tag)
    else (language_tag, region_tag)
  else (language_tag, region_tag).

(** Lines 196-245: [(language_tag, region_tag)] once the language branch
    has run; reading a converter attribute may raise. *)
Definition select_language_tag (cfg : Settings) (language : option Language)
    (stream_lang stream_title : string) : result (string * option string) :=
  match language with
  | Some l =>
      if language_bool l then
        let* language_tag :=
          if String.eqb (language_code cfg) "1" then convert (alpha2 l)
          else if String.eqb (language_code cfg) "2" then convert (alpha3b l)
          else if String.eqb (language_code cfg) "3" then Ok (alpha3 l)
          else if String.eqb (language_code cfg) "4" then convert (opensubtitles l)
          else Ok "" in
        if use_regional cfg then Ok (regional cfg l stream_title language_tag None)
        else Ok (language_tag, None)
      else if truthy stream_lang then Ok (stream_lang, None)
      else Ok ("", None)
  | None =>
      if truthy stream_lang then Ok (stream_lang, None) else Ok ("", None)
  end.

(** Lines 248-256: the hearing-impaired and forced tags. *)
Definition sdh_tag_of (cfg : Settings) (stream_title : string) : string :=
  if truthy (use_sdh_extension cfg) then
    if contains "sdh" stream_title || contains "cc" stream_title
       || contains "hi" stream_title
    then use_sdh_extension cfg else ""
  else "".

Definition forced_tag_of (cfg : Settings) (stream_title : string) : string :=
  if truthy (use_forced_extension cfg) then
    if contains "force" stream_title then use_forced_extension cfg else ""
  else "".

(** ["{}.{}".format(subtitle_tag, x)]. *)
Definition add_segment (subtitle_tag x : string) : string :=
  subtitle_tag ++ "." ++ x.

(** [str(stream_tags.get('title'))]. *)
Definition title_str (t : stream_tags) : string :=
  match tag_title t with Some s => s | None => "None" end.

(** Lines 258-270: the tag before the index fallback and sanitizing. *)
Definition assemble (cfg : Settings) (t : stream_tags) (stream_title : string)
    (language_tag : string) (region_tag : option string)
    (sdh_tag forced_tag : string) : result string :=
  if truthy language_tag then
    let subtitle_tag := add_segment "" language_tag in
    match region_tag with
    | None => Raise (UnboundLocalError "region_tag")
    | Some rt =>
        let subtitle_tag :=
          if truthy rt then add_segment subtitle_tag rt else subtitle_tag in
        let subtitle_tag :=
          if truthy sdh_tag then add_segment subtitle_tag sdh_tag else subtitle_tag in
        let subtitle_tag :=
          if truthy forced_tag then add_segment subtitle_tag forced_tag
          else subtitle_tag in
        Ok subtitle_tag
    end
  else if use_title_failback cfg && truthy stream_title then
    Ok (add_segment "" (title_str t))
  else Ok "".

(** Lines 149-245: [(language_tag, region_tag)] for a stream. *)
Definition language_tag_result (cfg : Settings) (info : stream_info)
  : result (string * option string) :=
  let t := stream_tags_of info in
  let stream_lang := stream_lang_of cfg t in
  let stream_title := stream_title_of t in
  let language := snd (resolve_language stream_lang) in
  select_language_tag cfg language stream_lang stream_title.

(** Lines 149-270: the tag assembled before the index fallback. *)
Definition assembled_tag (cfg : Settings) (info : stream_info) : result string :=
  let t := stream_tags_of info in
  let stream_title := stream_title_of t in
  let* lr := language_tag_result cfg info in
  let sdh_tag := sdh_tag_of cfg stream_title in
  let forced_tag := forced_tag_of cfg stream_title in
  assemble cfg t stream_title (fst lr) (snd lr) sdh_tag forced_tag.

(** Lines 149-277: the [subtitle_tag] computed for a stream. *)
Definition subtitle_tag_of (cfg : Settings) (info : stream_info) : result string :=
  let* subtitle_tag := assembled_tag cfg info in
  let subtitle_tag :=
    if truthy subtitle_tag then subtitle_tag
    else add_segment subtitle_tag (format_index (index info)) in
  Ok (sanitize subtitle_tag).

(** ['0:s:{}'.format(stream_id)]. *)
Definition stream_map_args (stream_id : Z) : list string :=
  ["-map"; "0:s:" ++ str_int stream_id].

(** [custom_stream_mapping(stream_info, stream_id)]: appends the entry to
    [self.sub_streams] and returns the mapping dictionary. *)
Definition custom_stream_mapping (cfg : Settings) (m : mapper)
    (info : stream_info) (stream_id : Z)
  : result (mapper * stream_mapping_result) :=
  let* tag := subtitle_tag_of cfg info in
  let entry := mkSubStream stream_id tag (stream_map_args stream_id) in
  Ok (mkMapper ((sub_streams m ++ [entry])%list) (generic_options m) (main_options m)
         (advanced_options m) (input_file m),
      mkMapping (stream_map_args stream_id)
        ["-c:s:" ++ str_int stream_id; "copy"]).

End Mapping.

(** ** [get_ffmpeg_args] *)

Definition get_ffmpeg_args (m : mapper) : result (list string) :=
  let args := ([] ++ generic_options m)%list in
  if negb (truthy (input_file m)) then Raise (Exception "Input file has not been set")
  else
    let args := (args ++ ["-i"; input_file m])%list in
    let args := (args ++ main_options m)%list in
    let args := (args ++ advanced_options m)%list in
    Ok args.

(** ** [posixpath] helpers used by the runners *)

(** [s.rfind(c)]: the last index of [c] in [s], [-1] when absent. *)
Fixpoint rfind_aux (c : ascii) (s : string) (i best : Z) : Z :=
  match s with
  | EmptyString => best
  | String c' s' =>
      rfind_aux c s' (i + 1)%Z (if Ascii.eqb c' c then i else best)
  end.

Definition rfind (c : ascii) (s : string) : Z := rfind_aux c s 0%Z (-1)%Z.

(** [os.path.splitext] (posixpath, [genericpath._splitext] with [sep='/']
    and [extsep='.']): split at the last dot of the last component unless
    that component is only dots up to it. *)
Definition splitext (p : string) : string * string :=
  let sepIndex := rfind "/" p in
  let dotIndex := rfind "." p in
  if (sepIndex <? dotIndex)%Z then
    let filenameIndex := (sepIndex + 1)%Z in
    (* while filenameIndex < dotIndex: if p[filenameIndex] != extsep: return *)
    if existsb (fun i => negb (match String.get i p with
                               | Some c => Ascii.eqb c "."
                               | None => false
                               end))
         (seq (Z.to_nat filenameIndex) (Z.to_nat (dotIndex - filenameIndex)%Z))
    then (substring 0 (Z.to_nat dotIndex) p,
          substring (Z.to_nat dotIndex) (String.length p - Z.to_nat dotIndex) p)
    else (p, "")
  else (p, "").

Fixpoint drop_slashes (l : list ascii) : list ascii :=
  match l with
  | c :: l' => if Ascii.eqb c "/" then drop_slashes l' else l
  | [] => []
  end.

(** [head.rstrip('/')]. *)
Definition rstrip_slash (s : string) : string :=
  string_of_list_ascii (rev (drop_slashes (rev (list_ascii_of_string s)))).

(** [head == '/' * len(head)]. *)
Fixpoint all_slashes (s : string) : bool :=
  match s with
  | EmptyString => true
  | String c s' => Ascii.eqb c "/" && all_slashes s'
  end.

(** [os.path.dirname] (posixpath). *)
Definition dirname (p : string) : string :=
  let i := Z.to_nat (rfind "/" p + 1)%Z in
  let head := substring 0 i p in
  if truthy head && negb (all_slashes head) then rstrip_slash head else head.

(** [s.endswith('/')]. *)
Fixpoint ends_with_slash (s : string) : bool :=
  match s with
  | EmptyString => false
  | String c EmptyString => Ascii.eqb c "/"
  | String _ s' => ends_with_slash s'
  end.

(** [os.path.join(a, b)] (posixpath, two arguments). *)
Definition join (a b : string) : string :=
  if String.prefix "/" b then b
  else if negb (truthy a) || ends_with_slash a then a ++ b
  else a ++ "/" ++ b.

(** ** [on_worker_process] *)

(** Lines 416-435: the output path of one extracted stream,
    [os.path.join(original_file_directory, "{}{}.srt".format(stem, tag))]. *)
Definition srt_output_path (original_file_path tag : string) : string :=
  let split_original_file_path := splitext original_file_path in
  let original_file_directory := dirname original_file_path in
  join original_file_directory (fst split_original_file_path ++ tag ++ ".srt").

(** Lines 424-435: [mapper.get_ffmpeg_args()] followed by the loop over
    [mapper.sub_streams], which extends the list in place. *)
Definition worker_ffmpeg_args (m : mapper) (original_file_path : string)
  : result (list string) :=
  let* ffmpeg_args := get_ffmpeg_args m in
  Ok (fold_left
        (fun args sub =>
           (args ++ sub_stream_mapping sub
                 ++ ["-y"; srt_output_path original_file_path (subtitle_tag sub)])%list)
        (sub_streams m) ffmpeg_args).

(** The keys of the worker [data] dictionary that the runner writes or
    reads. *)
Record worker_data := mkWorkerData {
  exec_command : list string;
  repeat : bool;
  file_in : string;
  original_file_path : string;
  has_progress_parser : bool
}.

(** [on_worker_process(data)].  The probe ([probe.file(abspath)]) and the
    library [StreamMapper] are outside this file: [probe_ok] is the
    result of [probe.file], [need] the outcome of
    [mapper.streams_need_processing()] and [m] the mapper once
    [set_input_file(abspath)] has run. *)
Definition on_worker_process (data : worker_data) (probe_ok : bool)
    (need : result bool) (m : mapper) : result worker_data :=
  let data := mkWorkerData [] false (file_in data) (original_file_path data)
                (has_progress_parser data) in
  if negb probe_ok then Ok data
  else
    let* n := need in
    if n then
      let* ffmpeg_args := worker_ffmpeg_args m (original_file_path data) in
      Ok (mkWorkerData ("ffmpeg" :: ffmpeg_args) false (file_in data)
            (original_file_path data) true)
    else Ok data.

(** ** [on_library_management_file_test] *)

Section FileTest.

(** The type of the values held in [data['shared_info']]. *)
Variable V : Type.

(** The keys of the file-test [data] dictionary that the runner writes or
    reads; a dictionary is an association list. *)
Record file_test_data := mkFileTestData {
  shared_info : option (list (string * V));
  add_file_to_pending_tasks : option bool
}.

Fixpoint dict_get (k : string) (d : list (string * V)) : option V :=
  match d with
  | [] => None
  | (k', v) :: d' => if String.eqb k k' then Some v else dict_get k d'
  end.

(** [on_library_management_file_test(data)].  The [Probe] and the
    library [StreamMapper] are outside this file: [set_probe v] is the
    result of [probe.set_probe(v)], [probe_file_ok] that of
    [probe.file(abspath)], [probe_value] that of [probe.get_probe()] and
    [need] the outcome of [mapper.streams_need_processing()].  Writing to
    a missing [data['shared_info']] raises [KeyError], a subclass of
    [Exception], given here by its message. *)
Definition on_library_management_file_test (data : file_test_data)
    (set_probe : V -> bool) (probe_file_ok : bool) (probe_value : V)
    (need : result bool) : result file_test_data :=
  let continue_test (_ : unit) :=
    let* data :=
      match shared_info data with
      | Some _ =>
          (* data['shared_info'] = {}; data['shared_info']['ffprobe'] = ... *)
          Ok (mkFileTestData (Some [("ffprobe", probe_value)])
                (add_file_to_pending_tasks data))
      | None => Raise (Exception "KeyError: 'shared_info'")
      end in
    let* n := need in
    if n then Ok (mkFileTestData (shared_info data) (Some true)) else Ok data in
  match dict_get "ffprobe" (match shared_info data with Some s => s | None => [] end) with
  | Some v => if negb (set_probe v) then Ok data else continue_test tt
  | None => if negb probe_file_ok then Ok data else continue_test tt
  end.

End FileTest.

Arguments mkFileTestData {V} shared_info add_file_to_pending_tasks.
Arguments shared_info {V} f.
Arguments add_file_to_pending_tasks {V} f.
Arguments dict_get {V} k d.
Arguments on_library_management_file_test {V} data set_probe probe_file_ok probe_value need.

(** The region subtags the regional detection can assign. *)
Definition region_codes : list string :=
  ["US"; "GB"; "AU"; "CA"; "NZ"; "BE"; "BR"; "MX"; "419"].

(** ["{}".format(x)] segment added when [x] is non-empty. *)
Definition opt_segment (x : string) : string :=
  if truthy x then "." ++ x else "".

(** ** A sample of the ISO-639 table of babelfish *)

Definition english : Language :=
  mkLanguage "eng" (Some "en") (Some "eng") (Some "eng") None None.
Definition french : Language :=
  mkLanguage "fra" (Some "fr") (Some "fre") (Some "fre") None None.
Definition spanish : Language :=
  mkLanguage "spa" (Some "es") (Some "spa") (Some "spa") None None.
Definition portuguese : Language :=
  mkLanguage "por" (Some "pt") (Some "por") (Some "por") None None.

Definition first_code (s : string) (codes : list (string * Language))
  : option Language :=
  match find (fun p => String.eqb (fst p) s) codes with
  | Some p => Some (snd p)
  | None => None
  end.

Definition iso_sample : language_table :=
  mkTable (fun k s =>
    match k with
    | FromAlpha2 => first_code s
        [("en", english); ("fr", french); ("es", spanish); ("pt", portuguese)]
    | FromAlpha3b => first_code s
        [("eng", english); ("fre", french); ("spa", spanish); ("por", portuguese)]
    | FromAlpha3t => first_code s
        [("eng", english); ("fra", french); ("spa", spanish); ("por", portuguese)]
    | FromOpenSubtitles => first_code s
        [("eng", english); ("fre", french); ("spa", spanish); ("por", portuguese)]
    end).

Definition stream_of (lang title : option string) (i : Z) : stream_info :=
  mkStream (Some "subrip") (Some i) (Some (mkTags lang title)).

(** Hawaiian has an ISO-639-2 code but no ISO-639-1 code. *)
Definition hawaiian : Language :=
  mkLanguage "haw" None (Some "haw") None None None.

Definition haw_sample : language_table :=
  mkTable (fun k s =>
    match k with
    | FromAlpha3b | FromAlpha3t => if String.eqb s "haw" then Some hawaiian else None
    | _ => None
    end).

Example ex_usa :
  subtitle_tag_of iso_sample default_settings
    (stream_of (Some "eng") (Some "English (USA)") 2) = Ok ".en.US".
Proof. reflexivity. Qed.

Example ex_commentary :
  subtitle_tag_of iso_sample
    (mkSettings "1" "" "" "" true true "1")
    (stream_of (Some "") (Some "Director Commentary") 3)
  = Ok ".Director-Commentary".
Proof. reflexivity. Qed.

Example ex_index :
  subtitle_tag_of iso_sample (mkSettings "1" "" "" "" false false "1")
    (stream_of (Some "") (Some "") 4) = Ok ".4".
Proof. reflexivity. Qed.

Example ex_und :
  subtitle_tag_of iso_sample default_settings
    (stream_of (Some "und") (Some "") 0) = Raise (UnboundLocalError "region_tag").
Proof. reflexivity. Qed.

Example ex_latin_ea :
  subtitle_tag_of iso_sample default_settings
    (stream_of (Some "spa") (Some "Latin America") 0)
  = Raise (UnboundLocalError "region_tag").
Proof. reflexivity. Qed.

Example ex_latin_419 :
  subtitle_tag_of iso_sample (mkSettings "1" "" "" "en" true true "2")
    (stream_of (Some "spa") (Some "Latin America") 0) = Ok ".es.419".
Proof. reflexivity. Qed.

Example ex_spaces :
  subtitle_tag_of iso_sample (mkSettings "1" "" "" "" true true "1")
    (stream_of None (Some "A  B") 0) = Ok ".A--B".
Proof. reflexivity. Qed.

Example ex_paths :
  splitext "/a/b/movie.mkv" = ("/a/b/movie", ".mkv")
  /\ splitext "/a/.hidden" = ("/a/.hidden", "")
  /\ splitext "/a/b.c/file" = ("/a/b.c/file", "")
  /\ splitext "x..y" = ("x.", ".y")
  /\ splitext "..y" = ("..y", "")
  /\ dirname "/a/b/movie.mkv" = "/a/b" /\ dirname "movie.mkv" = ""
  /\ dirname "/movie" = "/" /\ dirname "a//b" = "a" /\ dirname "//" = "//"
  /\ join "/a/b" "/a/b/movie.en.srt" = "/a/b/movie.en.srt"
  /\ join "videos" "videos/movie.en.srt" = "videos/videos/movie.en.srt"
  /\ join "" "x" = "x" /\ join "a/" "x" = "a/x"
  /\ srt_output_path "/m/movie.mkv" ".en.US" = "/m/movie.en.US.srt".
Proof. repeat split; reflexivity. Qed.

Example ex_haw :
  subtitle_tag_of haw_sample default_settings (stream_of (Some "haw") None 0)
  = Raise LanguageConvertError.
Proof. reflexivity. Qed.

Example ex_index_neg : str_int (-120) = "-120" /\ str_int 0 = "0" /\ str_int 907 = "907".
Proof. repeat split; reflexivity. Qed.

(** ** Properties of the string helpers *)

(** Some character of the string is in the [\s] class. *)
Fixpoint has_space (s : string) : bool :=
  match s with
  | EmptyString => false
  | String c s' => is_space c || has_space s'
  end.

Lemma sanitize_has_no_space (s : string) : has_space (sanitize s) = false.
Proof.
  induction s as [|c s IH]; simpl; [reflexivity|].
  rewrite IH; destruct (is_space c) eqn:E; [reflexivity|now rewrite E].
Qed.

Lemma sanitize_id (s : string) : has_space s = false -> sanitize s = s.
Proof.
  induction s as [|c s IH]; simpl; [reflexivity|].
  intros H; apply orb_false_iff in H as [H1 H2].
  rewrite H1, IH by exact H2; reflexivity.
Qed.

Lemma sanitize_length (s : string) : String.length (sanitize s) = String.length s.
Proof. induction s; simpl; congruence. Qed.

Lemma sanitize_app (s1 s2 : string) : sanitize (s1 ++ s2) = sanitize s1 ++ sanitize s2.
Proof. induction s1; simpl; congruence. Qed.

Lemma has_space_app (s1 s2 : string) :
  has_space (s1 ++ s2) = has_space s1 || has_space s2.
Proof.
  induction s1 as [|c s IH]; simpl; [reflexivity|].
  now rewrite IH, orb_assoc.
Qed.

Lemma digit_not_space (d : N) : (d < 10)%N -> is_space (digit d) = false.
Proof.
  intros H.
  assert (d = 0 \/ d = 1 \/ d = 2 \/ d = 3 \/ d = 4 \/ d = 5 \/ d = 6 \/ d = 7
          \/ d = 8 \/ d = 9)%N as Hd by lia.
  repeat destruct Hd as [->|Hd]; try reflexivity.
  subst; reflexivity.
Qed.

Lemma dec_aux_no_space (fuel : nat) (n : N) (acc : string) :
  has_space acc = false -> has_space (dec_aux fuel n acc) = false.
Proof.
  revert n acc; induction fuel as [|fuel IH]; intros n acc H; simpl; [exact H|].
  assert (Hd : is_space (digit (n mod 10)) = false)
    by (apply digit_not_space, N.mod_lt; discriminate).
  destruct (n <? 10)%N; [simpl; now rewrite Hd, H|].
  apply IH; simpl; now rewrite Hd, H.
Qed.

Lemma str_int_no_space (z : Z) : has_space (str_int z) = false.
Proof.
  unfold str_int, dec_N; destruct (z <? 0)%Z;
    [simpl|]; apply dec_aux_no_space; reflexivity.
Qed.

Lemma truthy_false (s : string) : truthy s = false -> s = "".
Proof.
  unfold truthy; destruct (String.eqb_spec s ""); [auto|discriminate].
Qed.

Lemma truthy_true (s : string) : truthy s = true -> s <> "".
Proof.
  unfold truthy; destruct (String.eqb_spec s ""); [discriminate|auto].
Qed.

Lemma truthy_dot (s : string) : truthy ("." ++ s) = true.
Proof. reflexivity. Qed.

Lemma lower_empty (s : string) : lower s = "" -> s = "".
Proof. destruct s; [reflexivity|discriminate]. Qed.

(** ** Claims *)

(** C1 (code bug). [custom_stream_mapping] does not complete on every
    input: [region_tag] is only bound by a regional keyword match, and
    [if region_tag:] is read whenever a language tag was found.  A stream
    whose language tag is ["engl"] (length 4, no lookup, passed through as
    the language tag) raises [UnboundLocalError], whatever the language
    table, the settings, the title and the index. *)
Theorem C1_region_tag_unbound (tbl : language_table) (cfg : Settings)
    (m : mapper) (codec : option string) (i : option Z) (title : option string)
    (stream_id : Z) :
  custom_stream_mapping tbl cfg m
    (mkStream codec i (Some (mkTags (Some "engl") title))) stream_id
  = Raise (UnboundLocalError "region_tag").
Proof. reflexivity. Qed.

(** C2 (code bug). [test_stream_needs_processing] on a stream whose
    [codec_name] key is absent raises [AttributeError] ([None.lower()])
    instead of returning false. *)
Theorem C2_absent_codec_raises (i : option Z) (t : option stream_tags) :
  test_stream_needs_processing (mkStream None i t)
  = Raise (AttributeError "'NoneType' object has no attribute 'lower'").
Proof. reflexivity. Qed.

(** C3. Locale resolution: a 2-character language attempts exactly the
    alpha-2 lookup; a 3-character one attempts alpha3b, then alpha3t, then
    OpenSubtitles, stopping at the first success, which is the result; any
    other length attempts nothing and yields no language.  The resolution
    itself never raises (its type has no error case). *)
Theorem C3_resolve_language_cascade (tbl : language_table) (s : string) :
  (String.length s = 2%nat ->
     resolve_language tbl s = ([FromAlpha2], lookup tbl FromAlpha2 s))
  /\ (String.length s = 3%nat ->
     resolve_language tbl s =
       match lookup tbl FromAlpha3b s with
       | Some l => ([FromAlpha3b], Some l)
       | None =>
           match lookup tbl FromAlpha3t s with
           | Some l => ([FromAlpha3b; FromAlpha3t], Some l)
           | None => ([FromAlpha3b; FromAlpha3t; FromOpenSubtitles],
                      lookup tbl FromOpenSubtitles s)
           end
       end)
  /\ (String.length s <> 2%nat -> String.length s <> 3%nat ->
     resolve_language tbl s = ([], None)).
Proof.
  unfold resolve_language, try_except, attempt; simpl.
  split; [|split]; intros H.
  - now rewrite H.
  - rewrite H; simpl.
    destruct (lookup tbl FromAlpha3b s); [reflexivity|simpl].
    destruct (lookup tbl FromAlpha3t s); reflexivity.
  - intros H'; apply Nat.eqb_neq in H, H'; now rewrite H, H'.
Qed.

(** C10. [get_ffmpeg_args] raises exactly when the input file is unset
    (the empty path); otherwise it returns the generic options, ["-i"] and
    the input file, the main options and the advanced options, in that
    order. *)
Theorem C10_get_ffmpeg_args (m : mapper) :
  match get_ffmpeg_args m with
  | Raise e => input_file m = "" /\ e = Exception "Input file has not been set"
  | Ok args =>
      input_file m <> "" /\
      args = (generic_options m ++ ["-i"; input_file m] ++ main_options m
              ++ advanced_options m)%list
  end.
Proof.
  unfold get_ffmpeg_args.
  destruct (truthy (input_file m)) eqn:E; simpl.
  - split; [now apply truthy_true|].
    now rewrite <- !app_assoc.
  - split; [now apply truthy_false|reflexivity].
Qed.

Lemma str_append_assoc (a b c : string) : (a ++ b) ++ c = a ++ b ++ c.
Proof. induction a; simpl; congruence. Qed.

Lemma str_append_empty (a : string) : a ++ "" = a.
Proof. induction a; simpl; congruence. Qed.

Lemma add_segment_prefix (lt s x : string) :
  (exists rest, s = "." ++ lt ++ rest) ->
  exists rest, add_segment s x = "." ++ lt ++ rest.
Proof.
  intros [rest ->]; exists (rest ++ "." ++ x).
  unfold add_segment; simpl; f_equal; apply str_append_assoc.
Qed.

Lemma add_segment_if_prefix (lt s x : string) (b : bool) :
  (exists rest, s = "." ++ lt ++ rest) ->
  exists rest, (if b then add_segment s x else s) = "." ++ lt ++ rest.
Proof. destruct b; [apply add_segment_prefix|auto]. Qed.

Lemma stream_title_nonempty (t : stream_tags) (T : string) :
  tag_title t = Some T -> T <> "" -> truthy (stream_title_of t) = true.
Proof.
  unfold stream_title_of; intros -> HT.
  destruct T as [|c T]; [congruence|reflexivity].
Qed.

(** With no language tag, the title fallback on and a non-empty title,
    the tag is the sanitized ['.' + title]. *)
Lemma title_fallback_tag (tbl : language_table) (cfg : Settings)
    (info : stream_info) (T : string) (r : option string) :
  use_title_failback cfg = true ->
  tag_title (stream_tags_of info) = Some T -> T <> "" ->
  language_tag_result tbl cfg info = Ok ("", r) ->
  subtitle_tag_of tbl cfg info = Ok (sanitize ("." ++ T)).
Proof.
  intros Hf HT HT' Hl.
  unfold subtitle_tag_of, assembled_tag; rewrite Hl; simpl.
  unfold assemble; simpl.
  rewrite Hf, (stream_title_nonempty _ T HT HT'); simpl.
  unfold title_str; rewrite HT; reflexivity.
Qed.

(** C4. Whenever [custom_stream_mapping] produces a tag, the tag is
    non-empty and holds no whitespace character; when nothing was
    assembled it is ['.' + str(index)]. *)
Theorem C4_tag_nonempty_no_space (tbl : language_table) (cfg : Settings)
    (info : stream_info) (tag : string) :
  subtitle_tag_of tbl cfg info = Ok tag ->
  tag <> "" /\ has_space tag = false /\
  (assembled_tag tbl cfg info = Ok "" ->
   forall z, index info = Some z -> tag = "." ++ str_int z).
Proof.
  unfold subtitle_tag_of.
  destruct (assembled_tag tbl cfg info) as [s|e]; simpl; [|discriminate].
  intros H; injection H as <-.
  split; [|split].
  - destruct (truthy s) eqn:E.
    + apply truthy_true in E; intros Hc.
      apply (f_equal String.length) in Hc; rewrite sanitize_length in Hc.
      destruct s; [congruence|discriminate].
    + apply truthy_false in E; subst s; simpl; discriminate.
  - apply sanitize_has_no_space.
  - intros He z Hz; injection He as ->; rewrite Hz; simpl.
    f_equal; apply sanitize_id, str_int_no_space.
Qed.

Lemma C4_witness :
  ".4" <> "" /\ has_space ".4" = false /\
  (assembled_tag iso_sample (mkSettings "1" "" "" "" false false "1")
     (stream_of (Some "") (Some "") 4) = Ok "" ->
   forall z, index (stream_of (Some "") (Some "") 4) = Some z -> ".4" = "." ++ str_int z).
Proof.
  apply (C4_tag_nonempty_no_space iso_sample (mkSettings "1" "" "" "" false false "1")
           (stream_of (Some "") (Some "") 4) ".4").
  reflexivity.
Defined.

(** C5 (counterexample). Two adjacent spaces in a title give two hyphens,
    not one: the title ["A  B"] yields [".A--B"]. *)
Lemma C5_whitespace_run_not_collapsed :
  subtitle_tag_of iso_sample (mkSettings "1" "" "" "" true true "1")
    (stream_of None (Some "A  B") 0) = Ok ".A--B"
  /\ subtitle_tag_of iso_sample (mkSettings "1" "" "" "" true true "1")
       (stream_of None (Some "A  B") 0) <> Ok ".A-B".
Proof. split; [reflexivity|discriminate]. Qed.

(** C5 (amended). The final sanitization replaces each whitespace
    character by one hyphen, position by position: the length is kept and
    every other character is unchanged. *)
Theorem C5_sanitize_per_character (s : string) :
  String.length (sanitize s) = String.length s /\
  forall n, String.get n (sanitize s)
            = option_map (fun c => if is_space c then "-"%char else c)
                (String.get n s).
Proof.
  split; [apply sanitize_length|].
  induction s as [|c s IH]; intros n; [reflexivity|].
  destruct n; simpl; [reflexivity|apply IH].
Qed.

(** C6 (code bug). A stream tagged ["und"] does get the default language
    as its stream language, but with [default_language = 'en'] and the
    ISO-639-1 format the tag is not [".en"]: [region_tag] is unbound and
    [custom_stream_mapping] raises [UnboundLocalError] (same defect as
    C1). *)
Theorem C6_und_default_raises (cfg : Settings) (i : Z) :
  default_language cfg = "en" -> language_code cfg = "1" ->
  stream_lang_of cfg (mkTags (Some "und") (Some "")) = "en" /\
  subtitle_tag_of iso_sample cfg (stream_of (Some "und") (Some "") i)
  = Raise (UnboundLocalError "region_tag").
Proof.
  destruct cfg as [lc sdh forced dl tf reg lat]; simpl; intros -> ->.
  split; [reflexivity|].
  destruct reg; reflexivity.
Qed.

Lemma C6_witness :
  stream_lang_of default_settings (mkTags (Some "und") (Some "")) = "en" /\
  subtitle_tag_of iso_sample default_settings (stream_of (Some "und") (Some "") 0)
  = Raise (UnboundLocalError "region_tag").
Proof. apply (C6_und_default_raises default_settings 0); reflexivity. Defined.

(** C7 (code bug). For ["spa"] titled ["Latin America"] with regional
    detection: in the [.ea] mode the language tag is overridden to ["ea"]
    but [region_tag] stays unbound, so [custom_stream_mapping] raises
    [UnboundLocalError] instead of giving [".ea"] (same defect as C1); in
    the region-code mode the tag is [".es.419"]. *)
Theorem C7_latin_spanish (cfg : Settings) (i : Z) :
  language_code cfg = "1" -> use_regional cfg = true ->
  (latin_spanish cfg = "1" ->
     language_tag_result iso_sample cfg (stream_of (Some "spa") (Some "Latin America") i)
     = Ok ("ea", None) /\
     subtitle_tag_of iso_sample cfg (stream_of (Some "spa") (Some "Latin America") i)
     = Raise (UnboundLocalError "region_tag"))
  /\ (latin_spanish cfg = "2" ->
     subtitle_tag_of iso_sample cfg (stream_of (Some "spa") (Some "Latin America") i)
     = Ok ".es.419").
Proof.
  destruct cfg as [lc sdh forced dl tf reg lat]; simpl; intros -> ->.
  split; intros ->; [split; reflexivity|].
  unfold subtitle_tag_of, assembled_tag, sdh_tag_of, forced_tag_of; simpl.
  destruct (truthy sdh), (truthy forced); reflexivity.
Qed.

Lemma C7_witness :
  (latin_spanish default_settings = "1" ->
     language_tag_result iso_sample default_settings
       (stream_of (Some "spa") (Some "Latin America") 0) = Ok ("ea", None) /\
     subtitle_tag_of iso_sample default_settings
       (stream_of (Some "spa") (Some "Latin America") 0)
     = Raise (UnboundLocalError "region_tag"))
  /\ (latin_spanish default_settings = "2" ->
     subtitle_tag_of iso_sample default_settings
       (stream_of (Some "spa") (Some "Latin America") 0) = Ok ".es.419").
Proof. apply (C7_latin_spanish default_settings 0); reflexivity. Defined.

(** C8. With the title fallback on, a non-empty title and no language tag
    determined, the tag is ['.' + title] with the original case, then
    sanitized; with an empty language and no default language the title
    ["Director Commentary"] gives [".Director-Commentary"]. *)
Theorem C8_title_fallback_original_case (tbl : language_table) (cfg : Settings) :
  use_title_failback cfg = true ->
  (forall info T r,
     tag_title (stream_tags_of info) = Some T -> T <> "" ->
     language_tag_result tbl cfg info = Ok ("", r) ->
     subtitle_tag_of tbl cfg info = Ok (sanitize ("." ++ T)))
  /\ (default_language cfg = "" -> forall i,
     subtitle_tag_of tbl cfg (stream_of (Some "") (Some "Director Commentary") i)
     = Ok ".Director-Commentary").
Proof.
  intros Hf; split.
  - intros info T r HT HT' Hl; exact (title_fallback_tag tbl cfg info T r Hf HT HT' Hl).
  - intros Hd i.
    rewrite (title_fallback_tag tbl cfg
               (stream_of (Some "") (Some "Director Commentary") i)
               "Director Commentary" None Hf); [reflexivity|reflexivity|discriminate|].
    unfold language_tag_result, stream_lang_of; simpl; rewrite Hd; reflexivity.
Qed.

Lemma C8_witness :
  (forall info T r,
     tag_title (stream_tags_of info) = Some T -> T <> "" ->
     language_tag_result iso_sample (mkSettings "1" "" "" "" true true "1") info
     = Ok ("", r) ->
     subtitle_tag_of iso_sample (mkSettings "1" "" "" "" true true "1") info
     = Ok (sanitize ("." ++ T)))
  /\ (default_language (mkSettings "1" "" "" "" true true "1") = "" -> forall i,
     subtitle_tag_of iso_sample (mkSettings "1" "" "" "" true true "1")
       (stream_of (Some "") (Some "Director Commentary") i)
     = Ok ".Director-Commentary").
Proof.
  apply (C8_title_fallback_original_case iso_sample (mkSettings "1" "" "" "" true true "1")).
  reflexivity.
Defined.

Lemma regional_region (cfg : Settings) (l : Language) (st lt lt' : string)
    (r : option string) :
  regional cfg l st lt None = (lt', r) ->
  (lt' = lt \/ lt' = "ea") /\
  (r = None \/ exists rt, r = Some rt /\ In rt region_codes).
Proof.
  unfold regional; cbv beta zeta; intros H.
  repeat match type of H with context [if ?b then _ else _] => destruct b end;
    injection H as <- <-;
    (split; [first [left; reflexivity | right; reflexivity]|]);
    first [left; reflexivity
          | right; eexists; split; [reflexivity | unfold region_codes; simpl; tauto]].
Qed.

Lemma select_region (cfg : Settings) (language : option Language)
    (sl st lt : string) (r : option string) :
  select_language_tag cfg language sl st = Ok (lt, r) ->
  r = None \/
  (use_regional cfg = true /\ exists rt, r = Some rt /\ In rt region_codes).
Proof.
  unfold select_language_tag; intros H.
  destruct language as [l|]; [destruct (language_bool l)|].
  - match type of H with bind ?m _ = _ => destruct m as [x|e] end;
      [simpl in H|discriminate].
    destruct (use_regional cfg) eqn:U.
    + destruct (regional cfg l st x None) as [a b] eqn:R.
      injection H as -> ->.
      destruct (regional_region cfg l st x lt r R) as [_ [->|Hr]]; auto.
    + injection H as _ <-; auto.
  - destruct (truthy sl); injection H as _ <-; auto.
  - destruct (truthy sl); injection H as _ <-; auto.
Qed.

Lemma region_code_truthy (rt : string) : In rt region_codes -> truthy rt = true.
Proof. unfold region_codes; simpl; intros H; repeat destruct H as [<-|H]; easy. Qed.

(** A successful tag with a language tag always has a region subtag. *)
Lemma region_bound_on_success (tbl : language_table) (cfg : Settings)
    (info : stream_info) (lt tag : string) (r : option string) :
  language_tag_result tbl cfg info = Ok (lt, r) -> lt <> "" ->
  subtitle_tag_of tbl cfg info = Ok tag ->
  exists rt, r = Some rt /\ In rt region_codes.
Proof.
  intros Hl Hlt Ht.
  destruct (select_region _ _ _ _ _ _ Hl) as [->|[_ Hr]]; [|exact Hr].
  revert Ht; unfold subtitle_tag_of, assembled_tag; rewrite Hl; simpl.
  unfold assemble.
  destruct (truthy lt) eqn:E; [discriminate|].
  apply truthy_false in E; contradiction.
Qed.




(** ** Further properties of the plugin *)

Lemma lower_char_idem (c : ascii) : lower_char (lower_char c) = lower_char c.
Proof. destruct c as [[] [] [] [] [] [] [] []]; reflexivity. Qed.

Lemma lower_idem (s : string) : lower (lower s) = lower s.
Proof. induction s; simpl; [reflexivity|now rewrite lower_char_idem, IHs]. Qed.

Lemma truthy_lower (s : string) : truthy (lower s) = truthy s.
Proof. destruct s; reflexivity. Qed.

(** X: language tags are matched case-insensitively: a stream tagged with
    a language [l] gets the same result as one tagged with [lower l]. *)
Theorem language_tag_case_insensitive (tbl : language_table) (cfg : Settings)
    (codec : option string) (i : option Z) (title : option string) (l : string) :
  subtitle_tag_of tbl cfg (mkStream codec i (Some (mkTags (Some l) title)))
  = subtitle_tag_of tbl cfg (mkStream codec i (Some (mkTags (Some (lower l)) title))).
Proof.
  assert (H : stream_lang_of cfg (mkTags (Some l) title)
              = stream_lang_of cfg (mkTags (Some (lower l)) title)).
  { unfold stream_lang_of; cbn [tag_language].
    rewrite truthy_lower, lower_idem; reflexivity. }
  unfold subtitle_tag_of, assembled_tag, language_tag_result; cbn [stream_tags_of tags].
  rewrite H; reflexivity.
Qed.

(** X: a string codec name never raises: the stream needs processing
    exactly when the lower-cased name is [srt], [subrip] or [mov_text],
    and the answer is the same for the lower-cased name. *)
Theorem needs_processing_string_codec (c : string) (i : option Z)
    (t : option stream_tags) :
  (test_stream_needs_processing (mkStream (Some c) i t) = Ok true
   <-> In (lower c) ["srt"; "subrip"; "mov_text"])
  /\ (test_stream_needs_processing (mkStream (Some c) i t) = Ok false
      <-> ~ In (lower c) ["srt"; "subrip"; "mov_text"])
  /\ test_stream_needs_processing (mkStream (Some c) i t)
     = test_stream_needs_processing (mkStream (Some (lower c)) i t).
Proof.
  unfold test_stream_needs_processing; cbn [codec_name].
  rewrite lower_idem; split; [|split; [|reflexivity]].
  - destruct (String.eqb_spec (lower c) "srt"), (String.eqb_spec (lower c) "subrip"),
      (String.eqb_spec (lower c) "mov_text"); simpl; intuition congruence.
  - destruct (String.eqb_spec (lower c) "srt"), (String.eqb_spec (lower c) "subrip"),
      (String.eqb_spec (lower c) "mov_text"); simpl; intuition congruence.
Qed.

(** X: with regional detection off, [region_tag] is never bound, so every
    stream that gets a language tag makes [custom_stream_mapping] raise
    [UnboundLocalError]. *)
Theorem no_regional_language_tag_raises (tbl : language_table) (cfg : Settings)
    (info : stream_info) (lt : string) (r : option string) :
  use_regional cfg = false ->
  language_tag_result tbl cfg info = Ok (lt, r) -> lt <> "" ->
  subtitle_tag_of tbl cfg info = Raise (UnboundLocalError "region_tag").
Proof.
  intros U Hl Hlt.
  destruct (select_region _ _ _ _ _ _ Hl) as [->|[U' _]]; [|congruence].
  unfold subtitle_tag_of, assembled_tag; rewrite Hl; simpl.
  unfold assemble.
  destruct (truthy lt) eqn:E; [reflexivity|].
  apply truthy_false in E; contradiction.
Qed.

Lemma no_regional_language_tag_raises_witness :
  use_regional (mkSettings "1" "" "" "en" true false "1") = false /\
  language_tag_result iso_sample (mkSettings "1" "" "" "en" true false "1")
    (stream_of (Some "eng") (Some "English") 0) = Ok ("en", None) /\
  subtitle_tag_of iso_sample (mkSettings "1" "" "" "en" true false "1")
    (stream_of (Some "eng") (Some "English") 0)
  = Raise (UnboundLocalError "region_tag").
Proof.
  split; [reflexivity|split; [reflexivity|]].
  apply (no_regional_language_tag_raises iso_sample (mkSettings "1" "" "" "en" true false "1")
           (stream_of (Some "eng") (Some "English") 0) "en" None);
    [reflexivity|reflexivity|discriminate].
Defined.

(** X: layout of a tag that carries a language: whenever it is produced,
    it is [.language.region] followed by the optional SDH and forced
    segments, sanitized, and the region is one of the fixed subtags. *)
Theorem language_tag_layout (tbl : language_table) (cfg : Settings)
    (info : stream_info) (lt tag : string) (r : option string) :
  language_tag_result tbl cfg info = Ok (lt, r) -> lt <> "" ->
  subtitle_tag_of tbl cfg info = Ok tag ->
  exists rt, r = Some rt /\ In rt region_codes /\
    tag = sanitize ("." ++ lt ++ "." ++ rt
                    ++ opt_segment (sdh_tag_of cfg (stream_title_of (stream_tags_of info)))
                    ++ opt_segment (forced_tag_of cfg (stream_title_of (stream_tags_of info)))).
Proof.
  intros Hl Hlt Ht.
  destruct (region_bound_on_success tbl cfg info lt tag r Hl Hlt Ht) as [rt [-> Hin]].
  exists rt; split; [reflexivity|split; [exact Hin|]].
  revert Ht; unfold subtitle_tag_of, assembled_tag; rewrite Hl; simpl.
  unfold assemble.
  set (sd := sdh_tag_of _ _); set (fo := forced_tag_of _ _).
  assert (E : truthy lt = true)
    by (destruct (truthy lt) eqn:E; [reflexivity|apply truthy_false in E; contradiction]).
  rewrite E, (region_code_truthy rt Hin).
  unfold opt_segment, add_segment.
  destruct (truthy sd), (truthy fo); simpl; intros H; injection H as <-;
    rewrite ?str_append_assoc, ?str_append_empty; reflexivity.
Qed.

Lemma language_tag_layout_witness :
  exists rt, Some "US" = Some rt /\ In rt region_codes /\
    ".en.US" = sanitize ("." ++ "en" ++ "." ++ rt
                    ++ opt_segment (sdh_tag_of default_settings
                         (stream_title_of (stream_tags_of (stream_of (Some "eng") (Some "English (USA)") 2))))
                    ++ opt_segment (forced_tag_of default_settings
                         (stream_title_of (stream_tags_of (stream_of (Some "eng") (Some "English (USA)") 2))))).
Proof.
  apply (language_tag_layout iso_sample default_settings
           (stream_of (Some "eng") (Some "English (USA)") 2) "en" ".en.US" (Some "US"));
    [reflexivity|discriminate|reflexivity].
Defined.

Lemma stream_lang_nonempty (cfg : Settings) (t : stream_tags) :
  default_language cfg <> "" -> stream_lang_of cfg t <> "".
Proof.
  unfold stream_lang_of; intros Hd.
  destruct (_ || _) eqn:E; [exact Hd|].
  apply orb_false_iff in E as [_ E].
  now apply String.eqb_neq in E.
Qed.

Lemma resolve_language_lookup (tbl : language_table) (s : string) (l : Language) :
  snd (resolve_language tbl s) = Some l -> exists k, lookup tbl k s = Some l.
Proof.
  unfold resolve_language, try_except, attempt.
  destruct (String.length s =? 2)%nat; [simpl; intros H; exists FromAlpha2; exact H|].
  destruct (String.length s =? 3)%nat; [|discriminate].
  simpl; destruct (lookup tbl FromAlpha3b s) eqn:E1; simpl; intros H.
  - exists FromAlpha3b; congruence.
  - destruct (lookup tbl FromAlpha3t s) eqn:E2; simpl in H.
    + exists FromAlpha3t; congruence.
    + exists FromOpenSubtitles; exact H.
Qed.

(** X: with the plugin's default settings (ISO-639-1 codes, default
    language [en], regional detection on) and a language table whose
    alpha-2 codes are non-empty, every stream gets a language tag, so a
    tag is produced only when a region subtag was detected in the
    title. *)
Theorem default_settings_need_region (tbl : language_table) (info : stream_info)
    (tag : string) :
  (forall k s l, lookup tbl k s = Some l -> alpha2 l <> Some "") ->
  subtitle_tag_of tbl default_settings info = Ok tag ->
  exists lt rt, language_tag_result tbl default_settings info = Ok (lt, Some rt)
                /\ lt <> "" /\ In rt region_codes.
Proof.
  intros Htbl Ht.
  destruct (language_tag_result tbl default_settings info) as [[lt r]|e] eqn:Hl;
    [|revert Ht; unfold subtitle_tag_of, assembled_tag; rewrite Hl; discriminate].
  assert (Hlt : lt <> "").
  { revert Hl; unfold language_tag_result.
    set (t := stream_tags_of info).
    assert (Hs : stream_lang_of default_settings t <> "")
      by (apply stream_lang_nonempty; discriminate).
    set (sl := stream_lang_of default_settings t) in *.
    destruct (snd (resolve_language tbl sl)) as [l|] eqn:Hr; unfold select_language_tag.
    - destruct (language_bool l).
      + cbn [language_code default_settings String.eqb Ascii.eqb Bool.eqb].
        destruct (alpha2 l) as [a|] eqn:Ha; simpl; [|discriminate].
        assert (Ha' : a <> "").
        { destruct (resolve_language_lookup tbl sl l Hr) as [k Hk].
          intros ->; exact (Htbl k sl l Hk Ha). }
        destruct (regional default_settings l (stream_title_of t) a None) eqn:R.
        intros Hs'; injection Hs' as -> _.
        destruct (regional_region _ _ _ _ _ _ R) as [[->| ->] _]; easy.
      + destruct (truthy sl) eqn:E; intros H; injection H as <- _;
          [now apply truthy_true|apply truthy_false in E; contradiction].
    - destruct (truthy sl) eqn:E; intros H; injection H as <- _;
        [now apply truthy_true|apply truthy_false in E; contradiction]. }
  destruct (region_bound_on_success tbl default_settings info lt tag r Hl Hlt Ht)
    as [rt [-> Hin]].
  exists lt, rt; auto.
Qed.

Lemma iso_sample_alpha2 (k : lookup_kind) (s : string) (l : Language) :
  lookup iso_sample k s = Some l -> alpha2 l <> Some "".
Proof.
  intros H; destruct k; cbn [lookup iso_sample] in H; unfold first_code in H;
    cbn [find fst] in H;
    repeat match type of H with context [String.eqb ?a ?b] => destruct (String.eqb a b) end;
    cbn [snd] in H; try discriminate H; injection H as <-; discriminate.
Qed.

Lemma default_settings_need_region_witness :
  exists lt rt, language_tag_result iso_sample default_settings
                  (stream_of (Some "eng") (Some "English (USA)") 2) = Ok (lt, Some rt)
                /\ lt <> "" /\ In rt region_codes.
Proof.
  apply (default_settings_need_region iso_sample
           (stream_of (Some "eng") (Some "English (USA)") 2) ".en.US");
    [exact iso_sample_alpha2|reflexivity].
Defined.

(** X: for Spanish, the Mexico and Latin-America checks combine: when the
    title names both, the [.ea] mode keeps [MX] as region and overrides
    the language tag to [ea], and the [es-419] mode overwrites [MX] with
    [419]. *)
Theorem spanish_mexico_and_latin (cfg : Settings) (l : Language)
    (st lt : string) :
  language_str l = "es" ->
  (contains "mexic" st || contains mexic_accented st) = true ->
  (contains "latin" st || contains "america" st) = true ->
  (latin_spanish cfg = "1" -> regional cfg l st lt None = ("ea", Some "MX"))
  /\ (latin_spanish cfg = "2" -> regional cfg l st lt None = (lt, Some "419")).
Proof.
  intros Hl Hm Ha; unfold regional, language_eq; cbv beta zeta.
  rewrite Hl, Hm, Ha.
  replace (String.eqb "es" "en") with false by reflexivity.
  replace (String.eqb "es" "fr") with false by reflexivity.
  replace (String.eqb "es" "pt") with false by reflexivity.
  replace (String.eqb "es" "es") with true by reflexivity.
  split; intros ->; reflexivity.
Qed.

Lemma spanish_mexico_and_latin_witness :
  (latin_spanish default_settings = "1" ->
     regional default_settings spanish "latin american (mexico)" "es" None
     = ("ea", Some "MX"))
  /\ (latin_spanish default_settings = "2" ->
     regional default_settings spanish "latin american (mexico)" "es" None
     = ("es", Some "419")).
Proof.
  apply (spanish_mexico_and_latin default_settings spanish "latin american (mexico)" "es");
    reflexivity.
Defined.

(** X: the representation of the resolved language is read outside the
    [try]: when the ISO-639-1 format is selected and the resolved
    language has no alpha-2 code, [custom_stream_mapping] raises
    [LanguageConvertError]. *)
Theorem missing_alpha2_raises (tbl : language_table) (cfg : Settings)
    (info : stream_info) (l : Language) :
  language_code cfg = "1" ->
  snd (resolve_language tbl (stream_lang_of cfg (stream_tags_of info))) = Some l ->
  language_bool l = true -> alpha2 l = None ->
  subtitle_tag_of tbl cfg info = Raise LanguageConvertError.
Proof.
  intros Hc Hr Hb Ha.
  unfold subtitle_tag_of, assembled_tag, language_tag_result.
  rewrite Hr; unfold select_language_tag; rewrite Hb, Hc, Ha; reflexivity.
Qed.

Lemma missing_alpha2_raises_witness :
  subtitle_tag_of haw_sample default_settings (stream_of (Some "haw") None 0)
  = Raise LanguageConvertError.
Proof.
  apply (missing_alpha2_raises haw_sample default_settings
           (stream_of (Some "haw") None 0) hawaiian); reflexivity.
Defined.

(** X: a stream without a [tags] key, with no default language
    configured, is named by its index: the tag is ['.' + str(index)], and
    [".None"] when the [index] key is missing too. *)
Theorem untagged_stream_index_tag (tbl : language_table) (cfg : Settings)
    (codec : option string) (i : option Z) :
  default_language cfg = "" ->
  subtitle_tag_of tbl cfg (mkStream codec i None) = Ok ("." ++ format_index i).
Proof.
  destruct cfg as [lc sdh forced dl tf reg lat]; simpl; intros ->.
  unfold subtitle_tag_of, assembled_tag, language_tag_result; simpl.
  unfold assemble; simpl; rewrite andb_false_r; simpl.
  f_equal; f_equal; destruct i as [z|]; [apply sanitize_id, str_int_no_space|reflexivity].
Qed.

Lemma untagged_stream_index_tag_witness :
  subtitle_tag_of iso_sample (mkSettings "1" "" "" "" true true "1")
    (mkStream (Some "subrip") None None) = Ok ".None".
Proof.
  apply (untagged_stream_index_tag iso_sample (mkSettings "1" "" "" "" true true "1")
           (Some "subrip") None); reflexivity.
Defined.

Lemma rfind_aux_ge (c : ascii) (s : string) (i best : Z) :
  (0 <= i)%Z -> (-1 <= best)%Z -> (-1 <= rfind_aux c s i best)%Z.
Proof.
  revert i best; induction s as [|c' s IH]; intros i best Hi Hb; simpl; [exact Hb|].
  apply IH; [lia|destruct (Ascii.eqb c' c); lia].
Qed.

Lemma rfind_ge (c : ascii) (s : string) : (-1 <= rfind c s)%Z.
Proof. apply rfind_aux_ge; lia. Qed.

(** The stem returned by [splitext] starts with the first character of
    the path. *)
Lemma splitext_stem_first (c : ascii) (r : string) :
  exists x, fst (splitext (String c r)) = String c x.
Proof.
  unfold splitext.
  pose proof (rfind_ge "/" (String c r)) as Hs.
  set (sep := rfind "/" (String c r)) in *.
  set (dot := rfind "." (String c r)) in *.
  destruct (sep <? dot)%Z eqn:Hlt; [|simpl; eauto].
  destruct (existsb _ _) eqn:Hex; [|simpl; eauto].
  destruct (Z.to_nat (dot - (sep + 1))%Z) eqn:Hn; [simpl in Hex; discriminate|].
  assert (Hd : Z.to_nat dot = S (Z.to_nat dot - 1)) by lia.
  simpl fst; rewrite Hd; simpl; eauto.
Qed.

(** X: for an absolute original path, the subtitle of a stream is
    written next to it as [stem + tag + ".srt"], [stem] being the path
    without its extension. *)
Theorem absolute_output_path (r tag : string) :
  srt_output_path (String "/" r) tag = fst (splitext (String "/" r)) ++ tag ++ ".srt".
Proof.
  unfold srt_output_path, join.
  destruct (splitext_stem_first "/" r) as [x Hx]; rewrite Hx; simpl.
  destruct (x ++ tag ++ ".srt"); reflexivity.
Qed.

Lemma prefix_slash_other (c : ascii) (s : string) :
  c <> "/"%char -> String.prefix "/" (String c s) = false.
Proof.
  intros H; cbn [String.prefix]; destruct (ascii_dec "/" c); [congruence|reflexivity].
Qed.

(** X: for a relative original path with a directory part [d] (not
    ending in a slash), the directory is repeated: the subtitle path is
    [d + "/" + stem + tag + ".srt"], the stem already holding [d]. *)
Theorem relative_output_path_repeats_directory (c : ascii) (r tag : string) :
  c <> "/"%char ->
  truthy (dirname (String c r)) = true ->
  ends_with_slash (dirname (String c r)) = false ->
  srt_output_path (String c r) tag
  = dirname (String c r) ++ "/" ++ fst (splitext (String c r)) ++ tag ++ ".srt".
Proof.
  intros Hc Hd He; unfold srt_output_path, join.
  destruct (splitext_stem_first c r) as [x Hx]; rewrite Hx.
  cbn [String.append]; rewrite prefix_slash_other by exact Hc.
  rewrite Hd, He; reflexivity.
Qed.

Lemma relative_output_path_repeats_directory_witness :
  srt_output_path "videos/movie.mkv" ".en.US"
  = dirname "videos/movie.mkv" ++ "/" ++ fst (splitext "videos/movie.mkv")
      ++ ".en.US" ++ ".srt"
  /\ srt_output_path "videos/movie.mkv" ".en.US" = "videos/videos/movie.en.US.srt".
Proof.
  split; [|reflexivity].
  apply (relative_output_path_repeats_directory "v" "ideos/movie.mkv" ".en.US");
    [discriminate|reflexivity|reflexivity].
Defined.

Lemma fold_left_app_flat_map {A B : Type} (f : A -> list B) (l : list A) (acc : list B) :
  fold_left (fun a x => (a ++ f x)%list) l acc = (acc ++ flat_map f l)%list.
Proof.
  revert acc; induction l as [|x l IH]; intros acc; simpl.
  - now rewrite app_nil_r.
  - now rewrite IH, app_assoc.
Qed.

(** The per-stream part of the extraction command. *)
Definition sub_stream_args (original_file_path : string) (sub : sub_stream)
  : list string :=
  (sub_stream_mapping sub
   ++ ["-y"; srt_output_path original_file_path (subtitle_tag sub)])%list.

Lemma worker_ffmpeg_args_flat (m : mapper) (p : string) :
  worker_ffmpeg_args m p
  = bind (get_ffmpeg_args m)
      (fun args => Ok (args ++ flat_map (sub_stream_args p) (sub_streams m))%list).
Proof.
  unfold worker_ffmpeg_args.
  destruct (get_ffmpeg_args m); [|reflexivity]; simpl.
  f_equal; apply (fold_left_app_flat_map (sub_stream_args p)).
Qed.

Definition sample_mapper : mapper :=
  mkMapper [mkSubStream 0 ".en.US" ["-map"; "0:s:0"];
            mkSubStream 1 ".fr.CA" ["-map"; "0:s:1"]]
    ["-hide_banner"] [] ["-map"; "0:s:0"] "/m/movie.mkv".

(** X: the extraction arguments are those of [get_ffmpeg_args] followed,
    for each recorded sub-stream in order, by its [-map] arguments, [-y]
    and its output path. *)
Theorem worker_ffmpeg_args_layout (m : mapper) (p : string) (args : list string) :
  get_ffmpeg_args m = Ok args ->
  worker_ffmpeg_args m p = Ok (args ++ flat_map (sub_stream_args p) (sub_streams m))%list.
Proof. intros H; rewrite worker_ffmpeg_args_flat, H; reflexivity. Qed.

Lemma worker_ffmpeg_args_layout_witness :
  worker_ffmpeg_args sample_mapper "/m/movie.mkv"
  = Ok (["-hide_banner"; "-i"; "/m/movie.mkv"; "-map"; "0:s:0"]
        ++ flat_map (sub_stream_args "/m/movie.mkv") (sub_streams sample_mapper))%list
  /\ worker_ffmpeg_args sample_mapper "/m/movie.mkv"
     = Ok ["-hide_banner"; "-i"; "/m/movie.mkv"; "-map"; "0:s:0";
           "-map"; "0:s:0"; "-y"; "/m/movie.en.US.srt";
           "-map"; "0:s:1"; "-y"; "/m/movie.fr.CA.srt"].
Proof.
  split; [|reflexivity].
  apply (worker_ffmpeg_args_layout sample_mapper "/m/movie.mkv"); reflexivity.
Defined.

(** X: the worker never asks for a repeat, and it sets an [ffmpeg]
    command only when the probe succeeded, the mapper reported streams
    to process and an input file is set; the command is then [ffmpeg]
    followed by the extraction arguments. Otherwise the command is left
    empty. *)
Theorem worker_command_only_when_needed (data data' : worker_data)
    (probe_ok : bool) (need : result bool) (m : mapper) :
  on_worker_process data probe_ok need m = Ok data' ->
  repeat data' = false /\
  (exec_command data' = []
   \/ (probe_ok = true /\ need = Ok true /\ input_file m <> "" /\
       exec_command data'
       = "ffmpeg" :: (generic_options m ++ ["-i"; input_file m] ++ main_options m
                      ++ advanced_options m
                      ++ flat_map (sub_stream_args (original_file_path data))
                           (sub_streams m))%list)).
Proof.
  unfold on_worker_process.
  destruct probe_ok; simpl; [|intros H; injection H as <-; auto].
  destruct need as [n|e]; simpl; [|discriminate].
  destruct n; [|intros H; injection H as <-; auto].
  rewrite worker_ffmpeg_args_flat; unfold get_ffmpeg_args.
  destruct (truthy (input_file m)) eqn:E; simpl; [|discriminate].
  intros H; injection H as <-; simpl; split; [reflexivity|right].
  split; [reflexivity|split; [reflexivity|split; [now apply truthy_true|]]].
  now rewrite <- !app_assoc.
Qed.

Definition sample_worker_data : worker_data :=
  mkWorkerData [] true "/m/movie.mkv" "/m/movie.mkv" false.

Lemma worker_command_only_when_needed_witness :
  exists data',
    on_worker_process sample_worker_data true (Ok true) sample_mapper = Ok data' /\
    repeat data' = false /\
    (exec_command data' = []
     \/ (true = true /\ Ok true = Ok true /\ input_file sample_mapper <> "" /\
         exec_command data'
         = "ffmpeg" :: (generic_options sample_mapper ++ ["-i"; input_file sample_mapper]
                        ++ main_options sample_mapper ++ advanced_options sample_mapper
                        ++ flat_map (sub_stream_args (original_file_path sample_worker_data))
                             (sub_streams sample_mapper))%list)).
Proof.
  eexists; split; [reflexivity|].
  apply (worker_command_only_when_needed sample_worker_data _ true (Ok true) sample_mapper).
  reflexivity.
Defined.

(** X: when [data] has no [shared_info] key and the file probe succeeds,
    [on_library_management_file_test] raises [KeyError] on
    [data['shared_info']['ffprobe'] = ...]: the test that precedes it only
    resets an existing [shared_info]. *)
Theorem file_test_missing_shared_info_raises {V : Type}
    (add : option bool) (set_probe : V -> bool) (probe_value : V) (need : result bool) :
  on_library_management_file_test (mkFileTestData None add) set_probe true probe_value need
  = Raise (Exception "KeyError: 'shared_info'").
Proof. reflexivity. Qed.

(** X: when [data] has a [shared_info] dictionary and the probe is
    accepted (the shared [ffprobe] entry is accepted by [set_probe], or,
    without one, the file probe succeeds), [shared_info] is replaced by a
    dictionary holding only [ffprobe], dropping every other runner's
    entry, and the file is marked for the task queue exactly when streams
    need processing. *)
Theorem file_test_replaces_shared_info {V : Type} (s : list (string * V))
    (add : option bool) (set_probe : V -> bool) (probe_file_ok : bool)
    (probe_value : V) (n : bool) :
  match dict_get "ffprobe" s with
  | Some v => set_probe v
  | None => probe_file_ok
  end = true ->
  on_library_management_file_test (mkFileTestData (Some s) add) set_probe
    probe_file_ok probe_value (Ok n)
  = Ok (mkFileTestData (Some [("ffprobe", probe_value)]) (if n then Some true else add)).
Proof.
  intros H; unfold on_library_management_file_test; cbn [shared_info].
  destruct (dict_get "ffprobe" s); rewrite H; simpl; destruct n; reflexivity.
Qed.

Lemma file_test_replaces_shared_info_witness :
  on_library_management_file_test
    (mkFileTestData (Some [("other", 1%nat); ("ffprobe", 2%nat)]) None)
    (fun _ => true) false 3%nat (Ok true)
  = Ok (mkFileTestData (Some [("ffprobe", 3%nat)]) (Some true)).
Proof.
  apply (file_test_replaces_shared_info [("other", 1%nat); ("ffprobe", 2%nat)] None
           (fun _ => true) false 3%nat true).
  reflexivity.
Defined.

(** X: the file test never clears the task flag: after it,
    [add_file_to_pending_tasks] is either unchanged or [True], and it is
    [True] only when the mapper reported streams to process. *)
Theorem file_test_never_unmarks {V : Type} (data data' : file_test_data V)
    (set_probe : V -> bool) (probe_file_ok : bool) (probe_value : V)
    (need : result bool) :
  on_library_management_file_test data set_probe probe_file_ok probe_value need = Ok data' ->
  add_file_to_pending_tasks data' = add_file_to_pending_tasks data
  \/ (add_file_to_pending_tasks data' = Some true /\ need = Ok true).
Proof.
  unfold on_library_management_file_test.
  destruct data as [[s|] add]; cbn [shared_info add_file_to_pending_tasks].
  - destruct (dict_get "ffprobe" s) as [v|];
      [destruct (set_probe v)|destruct probe_file_ok]; simpl;
      destruct need as [[]|e]; simpl; intros H; try discriminate H;
      injection H as <-; auto.
  - destruct probe_file_ok; simpl; intros H; [discriminate H|].
    injection H as <-; auto.
Qed.

Lemma file_test_never_unmarks_witness :
  add_file_to_pending_tasks (mkFileTestData (Some [("ffprobe", 3%nat)]) (Some true))
  = add_file_to_pending_tasks (mkFileTestData (Some [("ffprobe", 2%nat)]) (@None bool))
  \/ (add_file_to_pending_tasks (mkFileTestData (Some [("ffprobe", 3%nat)]) (Some true))
      = Some true /\ Ok true = Ok true).
Proof.
  apply (file_test_never_unmarks (mkFileTestData (Some [("ffprobe", 2%nat)]) None)
           _ (fun _ => true) false 3%nat (Ok true)).
  reflexivity.
Defined.
